(** * Session state and dispatcher core of cliobot ([cliobot/bots/__init__.py])

    A shallow embedding of [Message], [Session], [CachedSession] and the
    lifecycle parts of [BaseBot].  Python values stored in sessions are
    modelled by [pyval] together with Python's truthiness and [==];
    the [context] and [preferences] dictionaries (string keys) are stdpp
    [gmap]s. *)

From stdpp Require Import base gmap strings list fin_maps.
From Stdlib Require Import ZArith.


Set Warnings "-register-all".

(** ** Python values *)

Inductive pyval :=
| PNone
| PBool (b : bool)
| PInt (z : Z)
| PStr (s : string).

(** [bool(v)] *)
Definition truthy (v : pyval) : bool :=
  match v with
  | PNone => false
  | PBool b => b
  | PInt z => negb (Z.eqb z 0)
  | PStr s => negb (String.eqb s "")
  end.

(** [v is None] *)
Definition is_none (v : pyval) : bool :=
  match v with PNone => true | _ => false end.

(** Python [a == b]; [bool] is a subtype of [int], so [True == 1]. *)
Definition py_eq (a b : pyval) : bool :=
  match a, b with
  | PNone, PNone => true
  | PBool x, PBool y => Bool.eqb x y
  | PBool x, PInt z | PInt z, PBool x => Z.eqb (if x then 1 else 0) z
  | PInt x, PInt y => Z.eqb x y
  | PStr x, PStr y => String.eqb x y
  | _, _ => false
  end.

(** [a or b] *)
Definition py_or (a b : pyval) : pyval := if truthy a then a else b.

(** [str.endswith(suffix)] *)
Definition endswith (s suffix : string) : bool :=
  Nat.leb (String.length suffix) (String.length s) &&
  String.eqb (String.substring (String.length s - String.length suffix)%nat
                        (String.length suffix) s) suffix.

(** A Python [dict] with string keys. *)
Abbreviation pydict := (gmap string pyval).

(** [d.get(k, default)] *)
Definition dict_get (d : pydict) (k : string) (default : pyval) : pyval :=
  match d !! k with Some v => v | None => default end.

(** ** [Session] *)

Record Session := mkSession {
  user_id : pyval;
  chat_id : pyval;
  context : pydict;
  preferences : pydict
}.

Definition set_context (s : Session) (c : pydict) : Session :=
  mkSession (user_id s) (chat_id s) c (preferences s).

Definition set_preferences (s : Session) (p : pydict) : Session :=
  mkSession (user_id s) (chat_id s) (context s) p.

Module Session.

(** [pop(key)]: returns the popped value (or [None]) and the new state. *)
Definition pop (s : Session) (key : string) : pyval * Session :=
  match context s !! key with
  | Some v => (v, set_context s (delete key (context s)))
  | None => (PNone, s)
  end.

(** [set(key, value)] *)
Definition set (s : Session) (key : string) (value : pyval) : Session :=
  set_context s (<[key := value]> (context s)).

(** [get(key, default=None, include_preferences=True)] *)
Definition get (s : Session) (key : string) (default : pyval)
    (include_preferences : bool) : pyval :=
  let res := dict_get (context s) key PNone in
  let res := if negb (truthy res) && include_preferences
             then dict_get (preferences s) key default else res in
  py_or res default.

(** [clear(clear_user=False)]: the loop that kept temporary media keys is
    commented out in the source, so [clear_user] is unused. *)
Definition clear (s : Session) (clear_user : bool) : Session :=
  set_context s ∅.

(** [to_dict(include_preferences=True)] *)
Definition to_dict (s : Session) (include_preferences : bool) : pydict :=
  let res : pydict := if include_preferences then preferences s else ∅ in
  map_fold (fun k v acc => if String.eqb k "buffer" then acc else <[k := v]> acc)
           res (context s).

(** The dictionary comprehensions of [images()] and [audios()]. *)
Definition by_suffix (suffix : string) (d : pydict) : pydict :=
  filter (fun kv : string * pyval =>
            (endswith kv.1 suffix && negb (is_none kv.2)) = true) d.

Definition images (s : Session) : pydict := by_suffix "_image" (context s).
Definition audios (s : Session) : pydict := by_suffix "_audio" (context s).

(** [set_preference(key, val)] *)
Definition set_preference (s : Session) (key : string) (val : pyval) : Session :=
  set_preferences s (<[key := val]> (preferences s)).

End Session.

(** ** [CachedSession] *)

Record CachedSession := mkCached {
  sess : Session;
  dirty : bool
}.

(** The record returned by [db.create_or_get_chat_session(user_id)]. *)
Record ChatSessionData := mkChatSessionData {
  external_user_id : pyval;
  data_context : pydict;
  data_preferences : pydict
}.

(** A call [db.set_chat_context(user_id, context, preferences)]. *)
Record Write := mkWrite {
  w_user_id : pyval;
  w_context : pydict;
  w_preferences : pydict
}.

Module CachedSession.

(** [CachedSession.__init__(chat_session, chat_id)] *)
Definition init (chat_session : ChatSessionData) (chat_id : pyval) : CachedSession :=
  mkCached (mkSession (external_user_id chat_session) chat_id
                      (data_context chat_session) (data_preferences chat_session))
           false.

(** [from_cache(db, user_id, chat_id)], for a store whose
    [create_or_get_chat_session] is [create_or_get]. *)
Definition from_cache (create_or_get : pyval -> ChatSessionData)
    (user_id chat_id : pyval) : CachedSession :=
  init (create_or_get user_id) chat_id.

Definition pop (c : CachedSession) (key : string) : pyval * CachedSession :=
  let d := if bool_decide (is_Some (context (sess c) !! key)) then true else dirty c in
  let '(v, s') := Session.pop (sess c) key in
  (v, mkCached s' d).

(** [persist(db)]: the writes it issues to the store, and the new state. *)
Definition persist (c : CachedSession) : list Write * CachedSession :=
  if dirty c then
    ([mkWrite (user_id (sess c)) (context (sess c)) (preferences (sess c))],
     mkCached (sess c) false)
  else ([], c).

Definition set_preference (c : CachedSession) (key : string) (val : pyval)
    : CachedSession :=
  let d := if negb (py_eq (dict_get (preferences (sess c)) key PNone) val)
           then true else dirty c in
  mkCached (Session.set_preference (sess c) key val) d.

Definition set (c : CachedSession) (key : string) (value : pyval) : CachedSession :=
  let d := if negb (py_eq (dict_get (context (sess c)) key PNone) value)
           then true else dirty c in
  mkCached (Session.set (sess c) key value) d.

Definition clear (c : CachedSession) (clear_user : bool) : CachedSession :=
  let d := if Nat.ltb 0 (size (context (sess c))) then true else dirty c in
  mkCached (Session.clear (sess c) clear_user) d.

(** Inherited read operations. *)
Definition get (c : CachedSession) key default include_preferences : pyval :=
  Session.get (sess c) key default include_preferences.
Definition to_dict (c : CachedSession) include_preferences : pydict :=
  Session.to_dict (sess c) include_preferences.
Definition images (c : CachedSession) : pydict := Session.images (sess c).
Definition audios (c : CachedSession) : pydict := Session.audios (sess c).

End CachedSession.

(** ** The operations of a [CachedSession] as commands on its state *)

Inductive Op :=
| OpSet (key : string) (value : pyval)
| OpSetPreference (key : string) (value : pyval)
| OpPop (key : string)
| OpClear (clear_user : bool)
| OpGet (key : string) (default : pyval) (include_preferences : bool)
| OpToDict (include_preferences : bool)
| OpImages
| OpAudios
| OpPersist.

(** Result of one call. *)
Inductive Ret :=
| RNone
| RVal (v : pyval)
| RDict (d : pydict).

(** One method call on the session object: returned value, writes issued to
    the store, and the new state of the object. *)
Definition step (c : CachedSession) (op : Op) : Ret * list Write * CachedSession :=
  match op with
  | OpSet k v => (RNone, [], CachedSession.set c k v)
  | OpSetPreference k v => (RNone, [], CachedSession.set_preference c k v)
  | OpPop k => let '(v, c') := CachedSession.pop c k in (RVal v, [], c')
  | OpClear u => (RNone, [], CachedSession.clear c u)
  | OpGet k d i => (RVal (CachedSession.get c k d i), [], c)
  | OpToDict i => (RDict (CachedSession.to_dict c i), [], c)
  | OpImages => (RDict (CachedSession.images c), [], c)
  | OpAudios => (RDict (CachedSession.audios c), [], c)
  | OpPersist => let '(ws, c') := CachedSession.persist c in (RNone, ws, c')
  end.

(** A sequence of calls; the writes accumulate in order. *)
Fixpoint run (c : CachedSession) (ops : list Op) : list Write * CachedSession :=
  match ops with
  | [] => ([], c)
  | op :: ops' =>
      let '(_, ws, c') := step c op in
      let '(ws', c'') := run c' ops' in
      (ws ++ ws', c'')
  end.

(** ** [Message] and [User] *)

Record User := mkUser {
  username : pyval;
  phone : pyval;
  full_name : pyval;
  language : pyval
}.

Module Message.

Inductive Message := mkMessage {
  user : User;
  bot_id : pyval;
  message_id : pyval;
  user_id : pyval;
  chat_id : pyval;
  reply_to_message_id : pyval;
  text : pyval;
  reply_to_message : option Message;
  image : pyval;
  video : pyval;
  audio : pyval;
  metadata : pydict;
  is_forward : bool;
  voice : pyval
}.

(** [Message.__init__]; an omitted keyword argument is passed as its
    default ([None], or [False] for [is_forward]).  A [Message] object
    defines neither [__bool__] nor [__len__], so [self.reply_to_message] is
    truthy exactly when it is not [None]. *)
Definition init (message_id user_id chat_id : pyval) (user : User)
    (reply_to_message : option Message) (reply_to_message_id text image audio
     voice video bot_id : pyval) (metadata : option pydict) (is_forward : bool)
    : Message :=
  let metadata := match metadata with Some m => m | None => ∅ end in
  let rid :=
    match reply_to_message with
    | Some r => if negb (truthy reply_to_message_id) then Message.message_id r
                else reply_to_message_id
    | None => reply_to_message_id
    end in
  mkMessage user bot_id message_id user_id chat_id rid text reply_to_message
            image video audio metadata is_forward voice.

End Message.

(** ** [BaseBot]: worker pool and startup sequence *)

Section BaseBot.

(** The worker class: [handler_fn()] is called once per worker, the
    [i]-th call returning [handler_fn i]. *)
Variable Worker : Type.
Variable handler_fn : nat -> Worker.

(** [threading.Thread(target=handler.listen, args=(self,), daemon=True)] *)
Record Thread := mkThread {
  target : Worker;
  daemon : bool
}.

Record BaseBot := mkBaseBot {
  senders : list Worker;
  threads : list Thread
}.

(** [BaseBot.__init__], for a host whose [os.cpu_count()] is [cpu_count]
    ([None] when undetermined, where [int(None)] raises: [None] here). *)
Definition BaseBot_init (cpu_count : option nat) : option BaseBot :=
  match cpu_count with
  | None => None
  | Some n =>
      let senders := map handler_fn (seq 0 n) in
      Some (mkBaseBot senders (map (fun h => mkThread h true) senders))
  end.

(** Observable steps of [listen()]: [initialize()] run to completion,
    the [i]-th thread started, [start()] returned, the [i]-th sender
    stopped. *)
Inductive Event :=
| EvInitialized
| EvThreadStarted (i : nat)
| EvServeReturned
| EvSenderStopped (i : nat).

Inductive Outcome := Returned | Raised.

(** [listen()], where [initialize()] completes iff [init_ok] and the
    blocking [start()] returns iff [start_ok] (otherwise it raises and the
    exception propagates out of [listen]). *)
Definition listen (b : BaseBot) (init_ok start_ok : bool) : list Event * Outcome :=
  if init_ok then
    let started := map EvThreadStarted (seq 0 (length (threads b))) in
    if start_ok then
      (EvInitialized :: started ++ EvServeReturned
         :: map EvSenderStopped (seq 0 (length (senders b))), Returned)
    else (EvInitialized :: started, Raised)
  else ([], Raised).

End BaseBot.

(** * Properties *)

Lemma dict_get_Some (d : pydict) k v default :
  d !! k = Some v -> dict_get d k default = v.
Proof. unfold dict_get. by intros ->. Qed.

Lemma dict_get_None (d : pydict) k default :
  d !! k = None -> dict_get d k default = default.
Proof. unfold dict_get. by intros ->. Qed.

(** Claim C2, counterexample: a falsy preference value is not returned;
    the default is. *)
Lemma get_falsy_preference_counterexample :
  let s := mkSession (PInt 1) (PInt 2) ∅ {["k" := PInt 0]} in
  preferences s !! "k" = Some (PInt 0) /\
  Session.get s "k" (PStr "d") true = PStr "d" /\
  PStr "d" <> PInt 0.
Proof. split; [reflexivity | split; [reflexivity | discriminate]]. Qed.

(** Claim C2 (amended): [get(k, default=D, include_preferences)] returns
    [context[k]] when it is present and truthy; otherwise, with
    [include_preferences], [preferences[k]] when it is present and truthy;
    in every other case [D].  In particular [D] for a key in neither map. *)
Theorem get_resolution (s : Session) (k : string) (D : pyval) (incl : bool) :
  (forall v, context s !! k = Some v -> truthy v = true ->
     Session.get s k D incl = v) /\
  (forall v, truthy (dict_get (context s) k PNone) = false -> incl = true ->
     preferences s !! k = Some v -> truthy v = true ->
     Session.get s k D incl = v) /\
  (truthy (dict_get (context s) k PNone) = false ->
   (incl = false \/ truthy (dict_get (preferences s) k PNone) = false) ->
     Session.get s k D incl = D) /\
  (context s !! k = None -> preferences s !! k = None ->
     Session.get s k D incl = D).
Proof.
  unfold Session.get, py_or. split; [|split; [|split]].
  - intros v Hc Ht. rewrite (dict_get_Some _ _ _ _ Hc), Ht. simpl. by rewrite Ht.
  - intros v Hc -> Hp Ht. rewrite Hc. simpl. by rewrite (dict_get_Some _ _ _ _ Hp), Ht.
  - intros Hc Hi. rewrite Hc. simpl. destruct incl; simpl.
    + destruct Hi as [Hi | Hi]; [discriminate |].
      unfold dict_get in *. destruct (preferences s !! k) as [v|].
      * by rewrite Hi.
      * by destruct (truthy D).
    + by rewrite Hc.
  - intros Hc Hp. rewrite (dict_get_None _ _ _ Hc), (dict_get_None _ _ _ Hp).
    simpl. destruct incl; by destruct (truthy D).
Qed.

Lemma get_resolution_witness :
  let s := mkSession (PInt 1) (PInt 2) {["k" := PStr "ctx"]} {["p" := PInt 7]} in
  Session.get s "k" PNone true = PStr "ctx" /\
  Session.get s "p" PNone true = PInt 7 /\
  Session.get s "p" (PStr "d") false = PStr "d" /\
  Session.get s "q" (PStr "d") true = PStr "d".
Proof.
  intros s.
  destruct (get_resolution s "k" PNone true) as [H1 _].
  destruct (get_resolution s "p" PNone true) as [_ [H2 _]].
  destruct (get_resolution s "p" (PStr "d") false) as [_ [_ [H3 _]]].
  destruct (get_resolution s "q" (PStr "d") true) as [_ [_ [_ H4]]].
  split; [apply H1; reflexivity|].
  split; [apply H2; reflexivity|].
  split; [apply H3; [reflexivity | left; reflexivity]|].
  apply H4; reflexivity.
Defined.

(** Claim C3, counterexample: after [set("k", 0)] the preference value
    [5] is returned, not [0]. *)
Lemma set_get_falsy_counterexample :
  let s := mkSession (PInt 1) (PInt 2) ∅ {["k" := PInt 5]} in
  Session.get (Session.set s "k" (PInt 0)) "k" PNone true = PInt 5.
Proof. reflexivity. Qed.

(** Claim C3 (amended): [set(k, v)] followed by [get(k)] returns [v] for
    every truthy [v], whatever [preferences] holds for [k], on a [Session]
    as on a [CachedSession]; for a falsy [v] it behaves as if [k] were
    absent from [context]. *)
Theorem set_then_get (s : Session) (c : CachedSession) (k : string)
    (v D : pyval) (incl : bool) :
  (truthy v = true ->
     Session.get (Session.set s k v) k D incl = v /\
     CachedSession.get (CachedSession.set c k v) k D incl = v) /\
  (truthy v = false ->
     Session.get (Session.set s k v) k D incl =
     Session.get (Session.set s k PNone) k D incl).
Proof.
  unfold CachedSession.get, CachedSession.set, Session.get, Session.set,
    set_context, dict_get, py_or; simpl.
  rewrite !lookup_insert_eq. split.
  - intros Ht. rewrite Ht. simpl. by rewrite Ht.
  - intros Ht. rewrite Ht. destruct incl; simpl; rewrite ?Ht; reflexivity.
Qed.

Lemma set_then_get_witness :
  let s := mkSession (PInt 1) (PInt 2) ∅ {["k" := PInt 5]} in
  Session.get (Session.set s "k" (PInt 3)) "k" PNone true = PInt 3.
Proof.
  intros s.
  exact (proj1 (proj1 (set_then_get s (CachedSession.init
            (mkChatSessionData (PInt 1) ∅ ∅) (PInt 2)) "k" (PInt 3) PNone true)
          eq_refl)).
Defined.

(** Claim C5: [clear(clear_user)] empties [context], leaves [preferences]
    (and the identifiers) as they were, and does not depend on
    [clear_user]; the same holds for the [CachedSession] override. *)
Theorem clear_frame (s : Session) (c : CachedSession) (clear_user : bool) :
  context (Session.clear s clear_user) = ∅ /\
  preferences (Session.clear s clear_user) = preferences s /\
  user_id (Session.clear s clear_user) = user_id s /\
  chat_id (Session.clear s clear_user) = chat_id s /\
  Session.clear s true = Session.clear s false /\
  context (sess (CachedSession.clear c clear_user)) = ∅ /\
  preferences (sess (CachedSession.clear c clear_user)) = preferences (sess c) /\
  CachedSession.clear c true = CachedSession.clear c false.
Proof. repeat split. Qed.

(** Claim C6, counterexample: an [_image] key holding the empty string is
    returned by [images()]. *)
Lemma images_empty_value_counterexample :
  let s := mkSession (PInt 1) (PInt 2) {["a_image" := PStr ""]} ∅ in
  Session.images s !! "a_image" = Some (PStr "") /\ truthy (PStr "") = false.
Proof. split; reflexivity. Qed.

(** Claim C6 (amended): [images()] (resp. [audios()]) holds exactly the
    entries of [context] whose key ends in ["_image"] (resp. ["_audio"])
    and whose value is not [None]; empty but non-[None] values are kept. *)
Theorem images_audios_exact (s : Session) (k : string) (v : pyval) :
  (Session.images s !! k = Some v <->
     context s !! k = Some v /\ endswith k "_image" = true /\ v <> PNone) /\
  (Session.audios s !! k = Some v <->
     context s !! k = Some v /\ endswith k "_audio" = true /\ v <> PNone).
Proof.
  assert (Hsuf : forall suf, Session.by_suffix suf (context s) !! k = Some v <->
     context s !! k = Some v /\ endswith k suf = true /\ v <> PNone).
  { intros suf. unfold Session.by_suffix. rewrite map_lookup_filter_Some. simpl.
    split.
    - intros [Hc Hb]. apply andb_prop in Hb as [He Hn].
      split; [done | split; [done |]]. intros ->. discriminate.
    - intros [Hc [He Hn]]. split; [done |]. rewrite He. simpl.
      destruct v; [contradiction | reflexivity ..]. }
  split; apply Hsuf.
Qed.

(** Claim C10: [get], [to_dict], [images] and [audios] leave the session
    object (both maps and, on a [CachedSession], [dirty]) unchanged and
    issue no write. *)
Theorem read_ops_frame (c : CachedSession) (k : string) (D : pyval)
    (incl : bool) :
  (step c (OpGet k D incl)).2 = c /\ (step c (OpGet k D incl)).1.2 = [] /\
  (step c (OpToDict incl)).2 = c /\ (step c (OpToDict incl)).1.2 = [] /\
  (step c OpImages).2 = c /\ (step c OpImages).1.2 = [] /\
  (step c OpAudios).2 = c /\ (step c OpAudios).1.2 = [] /\
  run c [OpGet k D incl; OpToDict incl; OpImages; OpAudios] = ([], c).
Proof. repeat split. Qed.

(** Claim C4: [persist] writes nothing when [dirty] is false; two
    [persist] calls in a row issue at most one write; a [persist] that
    writes leaves [dirty] false. *)
Theorem persist_writes_at_most_once (c : CachedSession) :
  (dirty c = false -> CachedSession.persist c = ([], c)) /\
  length (run c [OpPersist; OpPersist]).1 <= 1 /\
  (forall ws c', CachedSession.persist c = (ws, c') -> ws <> [] ->
     dirty c' = false).
Proof.
  unfold CachedSession.persist. split; [|split].
  - intros ->. reflexivity.
  - destruct c as [s []]; simpl; lia.
  - intros ws c' Hp Hws. destruct (dirty c); injection Hp as <- <-;
      [reflexivity | contradiction].
Qed.

Lemma persist_writes_at_most_once_witness :
  let c := mkCached (mkSession (PInt 1) (PInt 2) {["k" := PInt 3]} ∅) true in
  CachedSession.persist (mkCached (sess c) false) = ([], mkCached (sess c) false) /\
  length (run c [OpPersist; OpPersist]).1 <= 1.
Proof.
  intros c. split.
  - exact (proj1 (persist_writes_at_most_once (mkCached (sess c) false)) eq_refl).
  - exact (proj1 (proj2 (persist_writes_at_most_once c))).
Defined.

Example persist_twice_one_write :
  let c := mkCached (mkSession (PInt 1) (PInt 2) {["k" := PInt 3]} ∅) true in
  length (run c [OpPersist; OpPersist]).1 = 1.
Proof. reflexivity. Qed.

(** A store whose [create_or_get_chat_session] returns an empty record. *)
Definition empty_store (uid : pyval) : ChatSessionData := mkChatSessionData uid ∅ ∅.

(** Only [persist] resets [dirty]: every other call keeps it set. *)
Lemma dirty_kept_by_non_persist (c : CachedSession) (op : Op) :
  op <> OpPersist -> dirty c = true -> dirty (step c op).2 = true.
Proof.
  intros Hop Hd. destruct op; simpl; try contradiction;
    unfold CachedSession.set, CachedSession.set_preference,
      CachedSession.clear, CachedSession.pop; simpl; rewrite ?Hd;
    repeat case_match; simplify_eq; simpl; auto.
Qed.

(** Claim C1, failing input: on a session fresh from the store with an
    empty [context], [set("k", None)] adds the key ["k"] to [context] but
    leaves [dirty] false, because [context.get("k")] is [None] for a
    missing key as well; the following [persist] writes nothing. *)
Lemma set_none_on_missing_key_not_dirty :
  let c := CachedSession.from_cache empty_store (PInt 1) (PInt 2) in
  let c' := CachedSession.set c "k" PNone in
  dirty c = false /\
  context (sess c) !! "k" = None /\
  context (sess c') !! "k" = Some PNone /\
  dirty c' = false /\
  (run c [OpSet "k" PNone; OpPersist]).1 = [].
Proof. repeat split. Qed.

(** Claim C7, counterexample: an explicit [reply_to_message_id=0] is
    replaced by the reply object's id. *)
Lemma reply_id_zero_counterexample :
  let u := mkUser PNone PNone PNone PNone in
  let r := Message.init (PInt 10) (PInt 1) (PInt 2) u None PNone PNone PNone
             PNone PNone PNone PNone None false in
  let m := Message.init (PInt 11) (PInt 1) (PInt 2) u (Some r) (PInt 0) PNone
             PNone PNone PNone PNone PNone None false in
  Message.reply_to_message_id m = PInt 10.
Proof. reflexivity. Qed.

(** Claim C7 (amended): when a [reply_to_message] object is given, a falsy
    [reply_to_message_id] (not given, i.e. [None], or [0] / [""]) is
    replaced by the reply's [message_id] at construction, and a truthy one
    is kept as given; without a reply object the id is kept as given. *)
Theorem reply_id_derivation (message_id user_id chat_id : pyval) (u : User)
    (reply : option Message.Message) (rid text image audio voice video bot_id : pyval)
    (metadata : option pydict) (is_forward : bool) :
  let m := Message.init message_id user_id chat_id u reply rid text image audio
             voice video bot_id metadata is_forward in
  (forall r, reply = Some r -> truthy rid = false ->
     Message.reply_to_message_id m = Message.message_id r) /\
  (truthy rid = true -> Message.reply_to_message_id m = rid) /\
  (reply = None -> Message.reply_to_message_id m = rid) /\
  Message.reply_to_message m = reply.
Proof.
  intros m. subst m. unfold Message.init. simpl. split; [|split; [|split]].
  - intros r -> Ht. simpl. by rewrite Ht.
  - intros Ht. destruct reply; simpl; [by rewrite Ht | done].
  - by intros ->.
  - done.
Qed.

Lemma reply_id_derivation_witness :
  let u := mkUser PNone PNone PNone PNone in
  let r := Message.init (PInt 10) (PInt 1) (PInt 2) u None PNone PNone PNone
             PNone PNone PNone PNone None false in
  Message.reply_to_message_id
    (Message.init (PInt 11) (PInt 1) (PInt 2) u (Some r) PNone PNone
       PNone PNone PNone PNone PNone None false) = PInt 10 /\
  Message.reply_to_message_id
    (Message.init (PInt 11) (PInt 1) (PInt 2) u (Some r) (PInt 7) PNone
       PNone PNone PNone PNone PNone None false) = PInt 7.
Proof.
  intros u r. split.
  - exact (proj1 (reply_id_derivation (PInt 11) (PInt 1) (PInt 2) u (Some r) PNone
      PNone PNone PNone PNone PNone PNone None false) r eq_refl eq_refl).
  - exact (proj1 (proj2 (reply_id_derivation (PInt 11) (PInt 1) (PInt 2) u (Some r)
      (PInt 7) PNone PNone PNone PNone PNone PNone None false)) eq_refl).
Defined.

Arguments senders {Worker} b.
Arguments threads {Worker} b.
Arguments target {Worker} t.
Arguments daemon {Worker} t.
Arguments BaseBot_init {Worker} handler_fn cpu_count.
Arguments listen {Worker} b init_ok start_ok.

(** Claim C8: a successful [BaseBot.__init__] creates exactly [n] workers,
    [n] being the host's reported [os.cpu_count()], each paired with one
    thread whose target is that worker; construction fails when the host
    reports no count. *)
Theorem worker_pool_size (Worker : Type) (handler_fn : nat -> Worker)
    (n : nat) (b : BaseBot Worker) :
  BaseBot_init handler_fn (Some n) = Some b ->
  length (senders b) = n /\ length (threads b) = n /\
  map target (threads b) = senders b /\
  senders b = map handler_fn (seq 0 n) /\
  BaseBot_init handler_fn None = None.
Proof.
  simpl. intros Hb. injection Hb as <-. simpl.
  rewrite !length_map, length_seq, map_map. simpl. rewrite map_id. auto.
Qed.

Lemma worker_pool_size_witness :
  exists b : BaseBot nat,
    BaseBot_init (fun i => i) (Some 4) = Some b /\
    length (senders b) = 4 /\ length (threads b) = 4.
Proof.
  exists (mkBaseBot nat [0; 1; 2; 3] (map (fun h => mkThread nat h true) [0; 1; 2; 3])).
  split; [reflexivity|].
  destruct (worker_pool_size nat (fun i => i) 4 _ eq_refl) as [H1 [H2 _]].
  split; [exact H1 | exact H2].
Defined.

Lemma lookup_map_started (l : list nat) (j : nat) (e : Event) :
  map EvThreadStarted l !! j = Some e -> exists i, e = EvThreadStarted i.
Proof.
  intros H. apply list_elem_of_lookup_2, list_elem_of_In, in_map_iff in H.
  destruct H as [i [<- _]]. eauto.
Qed.

Lemma lookup_map_stopped (l : list nat) (j : nat) (e : Event) :
  map EvSenderStopped l !! j = Some e -> exists i, e = EvSenderStopped i.
Proof.
  intros H. apply list_elem_of_lookup_2, list_elem_of_In, in_map_iff in H.
  destruct H as [i [<- _]]. eauto.
Qed.

(** Position of each event in the trace of [listen()]. *)
Lemma listen_lookup {Worker : Type} (b : BaseBot Worker) init_ok start_ok j e :
  (listen b init_ok start_ok).1 !! j = Some e ->
  init_ok = true /\
  ((j = 0 /\ e = EvInitialized) \/
   (exists i, 0 < j <= length (threads b) /\ e = EvThreadStarted i) \/
   (j = S (length (threads b)) /\ e = EvServeReturned /\ start_ok = true) \/
   (exists i, S (length (threads b)) < j /\ e = EvSenderStopped i /\
              start_ok = true)).
Proof.
  unfold listen. set (n := length (threads b)).
  destruct init_ok; [| simpl; rewrite lookup_nil; discriminate].
  intros H. split; [reflexivity|].
  assert (Hlen : length (map EvThreadStarted (seq 0 n)) = n)
    by (rewrite length_map, length_seq; reflexivity).
  destruct j as [|j];
    [left; destruct start_ok; simpl in H; split; congruence |].
  destruct start_ok; simpl in H.
  - rewrite lookup_app in H.
    destruct (map EvThreadStarted (seq 0 n) !! j) as [x|] eqn:E.
    + injection H as <-. apply lookup_lt_Some in E as Hlt.
      rewrite Hlen in Hlt.
      apply lookup_map_started in E as [i ->]. right; left. exists i.
      split; [lia | reflexivity].
    + apply lookup_ge_None in E. rewrite Hlen in H, E.
      destruct (j - n) as [|k] eqn:Ejn; simpl in H.
      * right; right; left. split; [lia | split; congruence].
      * apply lookup_map_stopped in H as [i ->]. right; right; right.
        exists i. split; [lia | auto].
  - apply lookup_lt_Some in H as Hlt. rewrite Hlen in Hlt.
    apply lookup_map_started in H as [i ->]. right; left. exists i.
    split; [lia | reflexivity].
Qed.

(** Claim C9: in [listen()], [initialize()] completes before any thread is
    started, and if it fails no thread is started; when it succeeds every
    thread is started, each before [start()] returns; a sender is stopped
    only after [start()] has returned, and once it has returned every
    sender is stopped. *)
Theorem listen_ordering {Worker : Type} (b : BaseBot Worker)
    (init_ok start_ok : bool) :
  let '(tr, r) := listen b init_ok start_ok in
  (forall j i, tr !! j = Some (EvThreadStarted i) ->
     exists j0, j0 < j /\ tr !! j0 = Some EvInitialized) /\
  (init_ok = false -> tr = [] /\ r = Raised) /\
  (init_ok = true -> forall i, i < length (threads b) -> EvThreadStarted i ∈ tr) /\
  (forall j j' i, tr !! j = Some (EvThreadStarted i) ->
     tr !! j' = Some EvServeReturned -> j < j') /\
  (forall j i, tr !! j = Some (EvSenderStopped i) ->
     exists j0, j0 < j /\ tr !! j0 = Some EvServeReturned) /\
  (r = Returned -> forall i, i < length (senders b) -> EvSenderStopped i ∈ tr).
Proof.
  destruct (listen b init_ok start_ok) as [tr r] eqn:Hl.
  pose proof (listen_lookup b init_ok start_ok) as Hlk.
  rewrite Hl in Hlk. simpl in Hlk.
  split; [|split; [|split; [|split; [|split]]]].
  - intros j i Hj. destruct (Hlk _ _ Hj) as [Hi Hc].
    exists 0. unfold listen in Hl. rewrite Hi in Hl.
    destruct start_ok; injection Hl as <- _; simpl;
      (split; [|reflexivity]);
      destruct Hc as [[_ ?] | [[i' [? ?]] | [[_ [? _]] | [i' [_ [? _]]]]]];
      congruence || lia.
  - intros ->. unfold listen in Hl. injection Hl as <- <-. auto.
  - intros -> i Hi. unfold listen in Hl.
    apply list_elem_of_In.
    destruct start_ok; injection Hl as <- _; simpl; right;
      rewrite ?in_app_iff; [left|]; apply in_map, in_seq; lia.
  - intros j j' i Hj Hj'.
    destruct (Hlk _ _ Hj) as [_ Hc]. destruct (Hlk _ _ Hj') as [_ Hc'].
    destruct Hc as [[_ ?] | [[i' [? ?]] | [[_ [? _]] | [i' [_ [? _]]]]]];
      try congruence.
    destruct Hc' as [[_ ?] | [[i'' [? ?]] | [[? _] | [i'' [_ [? _]]]]]];
      try congruence. lia.
  - intros j i Hj. destruct (Hlk _ _ Hj) as [Hi Hc].
    destruct Hc as [[_ ?] | [[i' [? ?]] | [[_ [? _]] | [i' [Hlt [? Hs]]]]]];
      try congruence.
    exists (S (length (threads b))). split; [exact Hlt|].
    unfold listen in Hl. rewrite Hi, Hs in Hl. injection Hl as <- _. simpl.
    rewrite lookup_app_r; rewrite length_map, length_seq; [|lia].
    rewrite Nat.sub_diag. reflexivity.
  - intros -> i Hi. unfold listen in Hl.
    destruct init_ok; [|discriminate]. destruct start_ok; [|discriminate].
    injection Hl as <-. apply list_elem_of_In. simpl. right.
    apply in_app_iff. right. right. apply in_map, in_seq. lia.
Qed.

Lemma listen_ordering_witness :
  let b := mkBaseBot nat [0; 1] (map (fun h => mkThread nat h true) [0; 1]) in
  EvSenderStopped 1 ∈ (listen b true true).1 /\
  (listen b false true).1 = [].
Proof.
  intros b. pose proof (listen_ordering b true true) as H1.
  pose proof (listen_ordering b false true) as H2.
  simpl in H1, H2. split.
  - destruct H1 as [_ [_ [_ [_ [_ H]]]]]. apply H; [reflexivity | simpl; lia].
  - destruct H2 as [_ [H _]]. exact (proj1 (H eq_refl)).
Defined.

Lemma images_audios_exact_witness :
  let s := mkSession (PInt 1) (PInt 2)
             {["a_image" := PStr "x"; "b_audio" := PNone; "c" := PInt 1]} ∅ in
  Session.images s !! "a_image" = Some (PStr "x") /\
  Session.audios s !! "b_audio" = None.
Proof.
  intros s. split.
  - apply (proj1 (images_audios_exact s "a_image" (PStr "x"))).
    split; [reflexivity | split; [reflexivity | discriminate]].
  - destruct (Session.audios s !! "b_audio") as [v|] eqn:E; [|reflexivity].
    apply (proj2 (images_audios_exact s "b_audio" v)) in E as [Hc [_ Hn]].
    simpl in Hc. injection Hc as <-. contradiction.
Defined.

(** * Further properties of the session code *)



(** [set(k, v)] then [pop(k)] returns [v] and leaves [context] as it was
    with [k] removed. *)
Theorem set_then_pop (s : Session) (k : string) (v : pyval) :
  Session.pop (Session.set s k v) k = (v, set_context s (delete k (context s))).
Proof.
  unfold Session.pop, Session.set, set_context. simpl.
  rewrite lookup_insert_eq, delete_insert_eq. reflexivity.
Qed.

(** [to_dict(include_preferences)]: a key of [context] other than
    ["buffer"] maps to its [context] value (context wins over preferences);
    every other key maps to its [preferences] value when preferences are
    included, and is absent otherwise. *)
Theorem to_dict_lookup (s : Session) (incl : bool) (k : string) :
  Session.to_dict s incl !! k =
  if String.eqb k "buffer"
  then (if incl then preferences s !! k else None)
  else match context s !! k with
       | Some v => Some v
       | None => if incl then preferences s !! k else None
       end.
Proof.
  unfold Session.to_dict.
  set (res := if incl then preferences s else ∅).
  assert (Hres : res !! k = if incl then preferences s !! k else None)
    by (subst res; destruct incl; [reflexivity | apply lookup_empty]).
  rewrite <- Hres. clear Hres. revert k.
  apply (map_fold_weak_ind
    (fun r m => forall k, r !! k =
       if String.eqb k "buffer" then res !! k
       else match m !! k with Some v => Some v | None => res !! k end)).
  - intros k. rewrite lookup_empty. by destruct (String.eqb k "buffer").
  - intros i x m r Hi IH k.
    destruct (String.eqb i "buffer") eqn:Ei.
    + rewrite IH. apply String.eqb_eq in Ei. subst i.
      destruct (String.eqb k "buffer") eqn:Ek; [reflexivity|].
      rewrite lookup_insert_ne; [reflexivity|].
      intros Heq. subst k. rewrite String.eqb_refl in Ek. discriminate.
    + destruct (decide (i = k)) as [-> | Hne].
      * rewrite Ei, !lookup_insert_eq. reflexivity.
      * rewrite !lookup_insert_ne by done. apply IH.
Qed.

(** After [clear()], [get(k, D)] returns the preference value when it is
    truthy, and [D] otherwise: preferences stay reachable. *)
Theorem get_after_clear (s : Session) (u : bool) (k : string) (D : pyval) :
  Session.get (Session.clear s u) k D true =
  if truthy (dict_get (preferences s) k PNone)
  then dict_get (preferences s) k PNone else D.
Proof.
  unfold Session.get, Session.clear, set_context, dict_get, py_or. simpl.
  rewrite lookup_empty. simpl.
  destruct (preferences s !! k) as [v|]; [reflexivity|]. simpl.
  by destruct (truthy D).
Qed.








(** [CachedSession.clear]: on an empty [context] nothing changes (in
    particular [dirty]); on a non-empty one the session becomes dirty. *)
Theorem cached_clear_dirty (c : CachedSession) (u : bool) :
  (context (sess c) = ∅ -> CachedSession.clear c u = c) /\
  (context (sess c) <> ∅ -> dirty (CachedSession.clear c u) = true).
Proof.
  unfold CachedSession.clear, Session.clear, set_context. split.
  - intros H. rewrite H, map_size_empty. simpl.
    destruct c as [[] ?]; simpl in *; by subst.
  - intros H. apply map_size_non_empty_iff in H.
    destruct (Nat.ltb_spec 0 (size (context (sess c)))); [reflexivity | lia].
Qed.

Lemma cached_clear_dirty_witness :
  let c := mkCached (mkSession (PInt 1) (PInt 2) ∅ {["k" := PInt 3]}) false in
  CachedSession.clear c true = c /\
  dirty (CachedSession.clear (CachedSession.set c "a" (PInt 1)) false) = true.
Proof.
  intros c. split.
  - exact (proj1 (cached_clear_dirty c true) eq_refl).
  - apply (proj2 (cached_clear_dirty _ false)). simpl. intros H.
    apply (f_equal (lookup "a")) in H. discriminate.
Defined.

(** After a [set] that changes the stored value, [persist] issues exactly
    one write, carrying the user id and the full current [context] and
    [preferences], and leaves the session clean. *)
Theorem set_then_persist (c : CachedSession) (k : string) (v : pyval) :
  py_eq (dict_get (context (sess c)) k PNone) v = false ->
  run c [OpSet k v; OpPersist] =
  ([mkWrite (user_id (sess c)) (<[k := v]> (context (sess c))) (preferences (sess c))],
   mkCached (Session.set (sess c) k v) false).
Proof.
  intros H. simpl. unfold CachedSession.set, CachedSession.persist. rewrite H.
  reflexivity.
Qed.

Lemma set_then_persist_witness :
  let c := CachedSession.from_cache empty_store (PInt 1) (PInt 2) in
  (run c [OpSet "k" (PInt 5); OpPersist]).1 =
  [mkWrite (PInt 1) {["k" := PInt 5]} ∅].
Proof.
  intros c. rewrite (set_then_persist c "k" (PInt 5) eq_refl). reflexivity.
Defined.

(** The calls that change [context] or [preferences]. *)
Definition mutating (op : Op) : bool :=
  match op with
  | OpSet _ _ | OpSetPreference _ _ | OpPop _ | OpClear _ => true
  | _ => false
  end.

(** Any sequence of reads and [persist] calls issues at most one write,
    and none at all on a clean session, which it leaves as it was. *)
Theorem reads_and_persists_write_at_most_once (c : CachedSession) (ops : list Op) :
  Forall (fun op => mutating op = false) ops ->
  (dirty c = false -> run c ops = ([], c)) /\ length (run c ops).1 <= 1.
Proof.
  revert c. induction ops as [|op ops IH]; intros c Hops; [simpl; split; [done | lia]|].
  inversion Hops as [|? ? Hop Hrest]; subst.
  assert (Hread : forall c', op <> OpPersist -> (step c' op).1.2 = [] /\ (step c' op).2 = c').
  { intros c' Hp. destruct op; try discriminate; try contradiction; split; reflexivity. }
  assert (Hor : op = OpPersist \/ op <> OpPersist)
    by (destruct op; (left; reflexivity) || (right; discriminate)).
  destruct Hor as [-> | Hp].
  - simpl. unfold CachedSession.persist. destruct (dirty c) eqn:Hd.
    + destruct (IH (mkCached (sess c) false) Hrest) as [H0 _].
      rewrite (H0 eq_refl). split; [discriminate | simpl; lia].
    + destruct (IH c Hrest) as [H0 H1]. simpl.
      destruct (run c ops) as [ws c''] eqn:E. split; [|exact H1].
      intros _. specialize (H0 Hd). done.
  - destruct (Hread c Hp) as [Hw Hs]. simpl.
    destruct (step c op) as [[r ws] c'] eqn:E. simpl in Hw, Hs. subst ws c'.
    destruct (IH c Hrest) as [H0 H1].
    destruct (run c ops) as [ws' c''] eqn:E'. simpl. split; [|exact H1].
    intros Hd. specialize (H0 Hd). done.
Qed.

Lemma reads_and_persists_write_at_most_once_witness :
  let c := mkCached (mkSession (PInt 1) (PInt 2) {["k" := PInt 3]} ∅) true in
  length (run c [OpPersist; OpGet "k" PNone true; OpImages; OpPersist]).1 <= 1.
Proof.
  intros c. apply (proj2 (reads_and_persists_write_at_most_once c
    [OpPersist; OpGet "k" PNone true; OpImages; OpPersist]
    ltac:(repeat constructor))).
Defined.

(** No call changes the session's user id, so every write a sequence of
    calls issues is keyed by the user id the session was loaded with. *)
Theorem writes_keyed_by_user (c : CachedSession) (ops : list Op) :
  user_id (sess (run c ops).2) = user_id (sess c) /\
  Forall (fun w => w_user_id w = user_id (sess c)) (run c ops).1.
Proof.
  revert c. induction ops as [|op ops IH]; intros c; [simpl; auto|].
  assert (Hstep : user_id (sess (step c op).2) = user_id (sess c) /\
                  Forall (fun w => w_user_id w = user_id (sess c)) (step c op).1.2).
  { destruct op; simpl;
      unfold CachedSession.pop, Session.pop, CachedSession.persist; simpl;
      repeat case_match; simplify_eq; simpl; auto. }
  simpl. destruct (step c op) as [[r ws] c'] eqn:E. simpl in Hstep.
  destruct Hstep as [Hu Hw]. destruct (IH c') as [Hu' Hw'].
  destruct (run c' ops) as [ws' c''] eqn:E'. simpl in *.
  split; [congruence|]. apply Forall_app. split; [exact Hw|].
  rewrite <- Hu. exact Hw'.
Qed.

(** ** [Message.translate] and [Message.full_text] *)

Module MessageOps.
Import Message.




End MessageOps.



Lemma dirty_kept_by_non_persist_witness :
  let c := mkCached (mkSession (PInt 1) (PInt 2) {["k" := PInt 3]} ∅) true in
  dirty (step c (OpSet "k" (PInt 3))).2 = true.
Proof.
  intros c. exact (dirty_kept_by_non_persist c (OpSet "k" (PInt 3))
                     ltac:(discriminate) eq_refl).
Defined.
